(** * fileshiftlib: the SFTP session wrapper of [fileshiftlib/fileshift.py]

    The class [SFTP] owns one paramiko transport and one paramiko SFTP client
    and forwards every operation to them.  The paramiko objects, the network
    and the remote server are outside the repository: they are taken here as a
    capability interface ([Paramiko]) whose calls may return or raise and may
    change the outside world in any way.  The methods of the class are
    embedded in a state-and-exception monad over the object's attributes, the
    outside world and a chronological trace of everything the object did
    (log records and delegated calls with their outcomes). *)

From Stdlib Require Import String List ZArith Bool Lia.
Import ListNotations.
Open Scope string_scope.

Set Implicit Arguments.

(** ** Python values, exceptions and outcomes *)

(** What a delegated call may hand back.  The wrapper never inspects these
    values; it either returns them or drops them. *)
Inductive value : Type :=
| VNone
| VBool (b : bool)
| VNames (names : list string)
| VObject (repr : string).

(** An instance of [Exception]: its class name and what [str(e)] gives.  This
    is what paramiko, the socket layer and attribute lookup raise; the
    handler of [reconnect] is [except Exception]. *)
Record exn : Type := mk_exn { exn_class : string; exn_str : string }.

Inductive outcome (A : Type) : Type :=
| Returned (a : A)
| Raised (e : exn).
Arguments Raised {A} e.

Definition AttributeError (name : string) : exn :=
  mk_exn "AttributeError" ("'SFTP' object has no attribute '" ++ name ++ "'").

(** ** Loggers *)

(** A [logging.Logger] is identified by its name. *)
Definition Logger : Type := string.

(** [logging.getLogger(name=__name__)] inside the module. *)
Definition getLogger_module : Logger := "fileshiftlib.fileshift".

Inductive Level : Type := INFO | WARNING.

(** ** The [Configuration] dataclass (lines 74-94) *)

Record Configuration : Type := {
  host : string;
  port : Z;
  username : string;
  password : option string
}.

(** The dataclass defaults. *)
Definition Configuration_default : Configuration :=
  {| host := "10.0.0.1"; port := 22; username := "admin"; password := None |}.

(** ** The consumed capability: paramiko *)

(** Methods the wrapper calls on a transport. *)
Inductive TransportMethod : Type :=
| Transport_close
| Transport_is_active.

(** Methods the wrapper calls on an SFTP client, with their arguments. *)
Inductive ClientMethod : Type :=
| SFTPClient_close
| SFTPClient_listdir (path : string)
| SFTPClient_chdir (path : string)
| SFTPClient_remove (filename : string)
| SFTPClient_get (remote_path local_path : string)
| SFTPClient_put (local_path remote_path : string).

Class Paramiko : Type := {
  World : Type;
  Transport : Type;
  SFTPClient : Type;
  (** [paramiko.Transport((host, port))] *)
  Transport_new : string -> Z -> World -> outcome Transport * World;
  (** [transport.connect(username=..., password=...)] *)
  Transport_connect :
    Transport -> string -> option string -> World -> outcome value * World;
  (** [paramiko.SFTPClient.from_transport(transport)] *)
  SFTPClient_from_transport : Transport -> World -> outcome SFTPClient * World;
  Transport_call : Transport -> TransportMethod -> World -> outcome value * World;
  SFTPClient_call : SFTPClient -> ClientMethod -> World -> outcome value * World
}.

Section Session.

Context {paramiko : Paramiko}.

(** ** What the object does, in the order it does it *)

Inductive Event : Type :=
| EvLog (lg : Logger) (lvl : Level) (msg : string)
| EvTransportNew (h : string) (p : Z) (r : outcome Transport)
| EvConnect (t : Transport) (u : string) (pw : option string) (r : outcome value)
| EvFromTransport (t : Transport) (r : outcome SFTPClient)
| EvTransportCall (t : Transport) (f : TransportMethod) (r : outcome value)
| EvClientCall (c : SFTPClient) (f : ClientMethod) (r : outcome value)
| EvUnraisable (e : exn).

(** ** The object and the machine *)

(** The instance attributes of an [SFTP] object; [None] is an attribute that
    has not been assigned yet. *)
Record SFTP : Type := {
  _logger : option Logger;
  _configuration : option Configuration;
  _transport : option Transport;
  sftp_client : option SFTPClient
}.

(** The object right after allocation, before [__init__] has run. *)
Definition SFTP_blank : SFTP :=
  {| _logger := None; _configuration := None;
     _transport := None; sftp_client := None |}.

Record Machine : Type := {
  self : SFTP;
  world : World;
  trace : list Event
}.

Definition set_logger (x : Logger) (s : SFTP) : SFTP :=
  {| _logger := Some x; _configuration := _configuration s;
     _transport := _transport s; sftp_client := sftp_client s |}.
Definition set_configuration (x : Configuration) (s : SFTP) : SFTP :=
  {| _logger := _logger s; _configuration := Some x;
     _transport := _transport s; sftp_client := sftp_client s |}.
Definition set_transport (x : Transport) (s : SFTP) : SFTP :=
  {| _logger := _logger s; _configuration := _configuration s;
     _transport := Some x; sftp_client := sftp_client s |}.
Definition set_sftp_client (x : SFTPClient) (s : SFTP) : SFTP :=
  {| _logger := _logger s; _configuration := _configuration s;
     _transport := _transport s; sftp_client := Some x |}.

(** ** The monad of methods *)

Definition M (A : Type) : Type := Machine -> outcome A * Machine.

Definition ret {A} (a : A) : M A := fun m => (Returned a, m).

Definition bind {A B} (c : M A) (k : A -> M B) : M B :=
  fun m =>
    match c m with
    | (Returned a, m') => k a m'
    | (Raised e, m') => (Raised e, m')
    end.

Notation "x <- c ;; k" := (bind c (fun x => k))
  (at level 61, c at next level, right associativity).
Notation "c ;; k" := (bind c (fun _ => k))
  (at level 61, right associativity).

(** [try: body / except Exception as e: handler e] *)
Definition try_except {A} (body : M A) (handler : exn -> M A) : M A :=
  fun m =>
    match body m with
    | (Returned a, m') => (Returned a, m')
    | (Raised e, m') => handler e m'
    end.

Definition emit (ev : Event) (m : Machine) : Machine :=
  {| self := self m; world := world m; trace := trace m ++ [ev] |}.

(** [self.<name>] *)
Definition getattr {A} (field : SFTP -> option A) (name : string) : M A :=
  fun m =>
    match field (self m) with
    | Some a => (Returned a, m)
    | None => (Raised (AttributeError name), m)
    end.

(** [self.<name> = x] *)
Definition setattr {A} (update : A -> SFTP -> SFTP) (x : A) : M unit :=
  fun m =>
    (Returned tt,
     {| self := update x (self m); world := world m; trace := trace m |}).

(** [lg.info(msg=...)] and [lg.warning(msg=...)]: a log record is handed to
    the sink; logging itself does not raise. *)
Definition log (lvl : Level) (lg : Logger) (msg : string) : M unit :=
  fun m => (Returned tt, emit (EvLog lg lvl msg) m).

Definition info := log INFO.
Definition warning := log WARNING.

(** A delegated call: run it against the world and record it with its
    outcome. *)
Definition delegate {A} (run : World -> outcome A * World)
    (record : outcome A -> Event) : M A :=
  fun m =>
    let (r, w) := run (world m) in
    (r, {| self := self m; world := w; trace := trace m ++ [record r] |}).

Definition new_transport (h : string) (p : Z) : M Transport :=
  delegate (Transport_new h p) (EvTransportNew h p).

Definition connect (t : Transport) (u : string) (pw : option string) : M value :=
  delegate (Transport_connect t u pw) (EvConnect t u pw).

Definition from_transport (t : Transport) : M SFTPClient :=
  delegate (SFTPClient_from_transport t) (EvFromTransport t).

Definition transport_call (t : Transport) (f : TransportMethod) : M value :=
  delegate (Transport_call t f) (EvTransportCall t f).

Definition client_call (c : SFTPClient) (f : ClientMethod) : M value :=
  delegate (SFTPClient_call c f) (EvClientCall c f).

(** ** The methods of [SFTP] *)

(** [auth] (lines 148-167). *)
Definition auth : M (Transport * SFTPClient) :=
  lg <- getattr _logger "_logger" ;;
  info lg "Establishing a new SFTP session with the remote server." ;;
  cfg_h <- getattr _configuration "_configuration" ;;
  cfg_p <- getattr _configuration "_configuration" ;;
  transport <- new_transport (host cfg_h) (port cfg_p) ;;
  cfg_u <- getattr _configuration "_configuration" ;;
  cfg_pw <- getattr _configuration "_configuration" ;;
  connect transport (username cfg_u) (password cfg_pw) ;;
  client <- from_transport transport ;;
  ret (transport, client).

(** [__init__] (lines 96-131); [logger or logging.getLogger(name=__name__)]
    picks the module logger when no logger is passed. *)
Definition __init__ (host username : string) (password : option string)
    (port : Z) (logger : option Logger) : M unit :=
  setattr set_logger
    (match logger with Some lg => lg | None => getLogger_module end) ;;
  setattr set_configuration
    {| host := host; port := port; username := username;
       password := password |} ;;
  handles <- auth ;;
  setattr set_transport (fst handles) ;;
  setattr set_sftp_client (snd handles).

(** [__del__] (lines 133-146). *)
Definition __del__ : M unit :=
  lg <- getattr _logger "_logger" ;;
  info lg "Closing the SFTP session and releasing resources." ;;
  t <- getattr _transport "_transport" ;;
  transport_call t Transport_close ;;
  c <- getattr sftp_client "sftp_client" ;;
  client_call c SFTPClient_close ;;
  ret tt.

(** The [try] block of [reconnect] with its handler (lines 183-187). *)
Definition reconnect_close : M unit :=
  try_except
    (t <- getattr _transport "_transport" ;;
     transport_call t Transport_close ;;
     c <- getattr sftp_client "sftp_client" ;;
     client_call c SFTPClient_close ;;
     ret tt)
    (fun e =>
       lg <- getattr _logger "_logger" ;;
       warning lg ("Error closing existing connection: " ++ exn_str e)).

(** Everything [reconnect] does before it authenticates again
    (lines 181-187). *)
Definition reconnect_cleanup : M unit :=
  lg <- getattr _logger "_logger" ;;
  info lg "Establishing a secure connection and authenticating with the SFTP server." ;;
  reconnect_close.

(** [reconnect] (lines 169-189). *)
Definition reconnect : M unit :=
  reconnect_cleanup ;;
  handles <- auth ;;
  setattr set_transport (fst handles) ;;
  setattr set_sftp_client (snd handles).

(** [is_connected] (lines 191-202). *)
Definition is_connected : M value :=
  lg <- getattr _logger "_logger" ;;
  info lg "Checking if the SFTP connection is currently active." ;;
  t <- getattr _transport "_transport" ;;
  transport_call t Transport_is_active.

(** [list_dir] (lines 204-221). *)
Definition list_dir (path : string) : M value :=
  lg <- getattr _logger "_logger" ;;
  info lg "Listing the names of the contents in the specified folder on the SFTP server." ;;
  lg' <- getattr _logger "_logger" ;;
  info lg' path ;;
  c <- getattr sftp_client "sftp_client" ;;
  client_call c (SFTPClient_listdir path).

(** [change_dir] (lines 223-243). *)
Definition change_dir (path : string) : M value :=
  lg <- getattr _logger "_logger" ;;
  info lg "Changing the current working directory on the SFTP server." ;;
  lg' <- getattr _logger "_logger" ;;
  info lg' path ;;
  c <- getattr sftp_client "sftp_client" ;;
  client_call c (SFTPClient_chdir path) ;;
  ret VNone.

(** [delete_file] (lines 245-266). *)
Definition delete_file (filename : string) : M value :=
  lg <- getattr _logger "_logger" ;;
  info lg "Deleting a file from the SFTP server." ;;
  lg' <- getattr _logger "_logger" ;;
  info lg' filename ;;
  c <- getattr sftp_client "sftp_client" ;;
  client_call c (SFTPClient_remove filename) ;;
  ret VNone.

(** [download_file] (lines 268-291). *)
Definition download_file (remote_path local_path : string) : M value :=
  lg <- getattr _logger "_logger" ;;
  info lg "Downloading a file from the SFTP server to the local machine." ;;
  lg' <- getattr _logger "_logger" ;;
  info lg' remote_path ;;
  lg'' <- getattr _logger "_logger" ;;
  info lg'' local_path ;;
  c <- getattr sftp_client "sftp_client" ;;
  client_call c (SFTPClient_get remote_path local_path) ;;
  ret VNone.

(** [upload_file] (lines 293-317). *)
Definition upload_file (local_path remote_path : string) : M value :=
  lg <- getattr _logger "_logger" ;;
  info lg "Uploading a file from the local machine to the SFTP server." ;;
  lg' <- getattr _logger "_logger" ;;
  info lg' local_path ;;
  lg'' <- getattr _logger "_logger" ;;
  info lg'' remote_path ;;
  c <- getattr sftp_client "sftp_client" ;;
  client_call c (SFTPClient_put local_path remote_path) ;;
  ret VNone.

(** ** Construction and release *)

(** The call [SFTP(host, username, password, port, logger)]: a blank object
    is allocated and [__init__] runs on it; the caller receives the object
    only when [__init__] returns, and the exception otherwise.  [w] and [tr]
    are the world and the trace at the time of the call. *)
Definition SFTP_new (host username : string) (password : option string)
    (port : Z) (logger : option Logger) (w : World) (tr : list Event)
    : outcome SFTP * (World * list Event) :=
  match __init__ host username password port logger
          {| self := SFTP_blank; world := w; trace := tr |} with
  | (Returned _, m) => (Returned (self m), (world m, trace m))
  | (Raised e, m) => (Raised e, (world m, trace m))
  end.

(** What the interpreter does when the object goes out of use: it calls
    [__del__], and an exception leaving [__del__] is not raised in the code
    that dropped the object but handed to [sys.unraisablehook]. *)
Definition release : M unit :=
  try_except __del__ (fun e m => (Returned tt, emit (EvUnraisable e) m)).

(** ** Operations on a constructed object *)

Inductive Op : Type :=
| Auth
| Reconnect
| IsConnected
| ListDir (path : string)
| ChangeDir (path : string)
| DeleteFile (filename : string)
| DownloadFile (remote_path local_path : string)
| UploadFile (local_path remote_path : string)
| Release.

(** The machine after one operation, whether it returned or raised. *)
Definition step (o : Op) (m : Machine) : Machine :=
  match o with
  | Auth => snd (auth m)
  | Reconnect => snd (reconnect m)
  | IsConnected => snd (is_connected m)
  | ListDir p => snd (list_dir p m)
  | ChangeDir p => snd (change_dir p m)
  | DeleteFile f => snd (delete_file f m)
  | DownloadFile r l => snd (download_file r l m)
  | UploadFile l r => snd (upload_file l r m)
  | Release => snd (release m)
  end.

Definition run (ops : list Op) (m : Machine) : Machine :=
  fold_left (fun acc o => step o acc) ops m.

(** The five pass-through operations, for statements that range over them. *)
Inductive FileOp : Type :=
| ListDirectory (path : string)
| ChangeDirectory (path : string)
| DeleteRemoteFile (filename : string)
| DownloadRemoteFile (remote_path local_path : string)
| UploadLocalFile (local_path remote_path : string).

Definition file_op (o : FileOp) : M value :=
  match o with
  | ListDirectory p => list_dir p
  | ChangeDirectory p => change_dir p
  | DeleteRemoteFile f => delete_file f
  | DownloadRemoteFile r l => download_file r l
  | UploadLocalFile l r => upload_file l r
  end.

(** ** Vocabulary of the specification *)

(** The object as the constructor hands it out: all four attributes set. *)
Definition Open (m : Machine) (lg : Logger) (cfg : Configuration)
    (t : Transport) (c : SFTPClient) : Prop :=
  self m =
  {| _logger := Some lg; _configuration := Some cfg;
     _transport := Some t; sftp_client := Some c |}.

(** One authentication as the specification describes it: open a transport
    to (host, port), authenticate with (username, password), derive a client
    from that transport.  Returns the outcome, the world afterwards and the
    delegated calls made, in order. *)
Definition authenticate_calls (cfg : Configuration) (w : World)
    : outcome (Transport * SFTPClient) * World * list Event :=
  match Transport_new (host cfg) (port cfg) w with
  | (Raised e, w1) =>
      (Raised e, w1, [EvTransportNew (host cfg) (port cfg) (Raised e)])
  | (Returned t, w1) =>
      match Transport_connect t (username cfg) (password cfg) w1 with
      | (Raised e, w2) =>
          (Raised e, w2,
           [EvTransportNew (host cfg) (port cfg) (Returned t);
            EvConnect t (username cfg) (password cfg) (Raised e)])
      | (Returned v, w2) =>
          match SFTPClient_from_transport t w2 with
          | (Raised e, w3) =>
              (Raised e, w3,
               [EvTransportNew (host cfg) (port cfg) (Returned t);
                EvConnect t (username cfg) (password cfg) (Returned v);
                EvFromTransport t (Raised e)])
          | (Returned c, w3) =>
              (Returned (t, c), w3,
               [EvTransportNew (host cfg) (port cfg) (Returned t);
                EvConnect t (username cfg) (password cfg) (Returned v);
                EvFromTransport t (Returned c)])
          end
      end
  end.

(** The object at the moment [__init__] calls [auth]: logger and
    configuration assigned, no handles yet. *)
Definition configured (host username : string) (password : option string)
    (port : Z) (logger : option Logger) (w : World) (tr : list Event)
    : Machine :=
  {| self :=
       {| _logger :=
            Some (match logger with
                  | Some lg => lg
                  | None => getLogger_module
                  end);
          _configuration :=
            Some {| host := host; port := port; username := username;
                    password := password |};
          _transport := None; sftp_client := None |};
     world := w; trace := tr |}.

(** Counting the attempts of each step of an authentication in a run. *)
Definition is_open_call (ev : Event) : bool :=
  match ev with EvTransportNew _ _ _ => true | _ => false end.
Definition is_connect_call (ev : Event) : bool :=
  match ev with EvConnect _ _ _ _ => true | _ => false end.
Definition is_derive_call (ev : Event) : bool :=
  match ev with EvFromTransport _ _ => true | _ => false end.
Definition attempts (kind : Event -> bool) (evs : list Event) : nat :=
  length (filter kind evs).

Definition auth_message : string :=
  "Establishing a new SFTP session with the remote server.".

Definition closing_warning (e : exn) : string :=
  "Error closing existing connection: " ++ exn_str e.

(** Closing the pair the way [reconnect] tolerates it: the transport first,
    the client only when the transport's [close] returned, one warning for
    the failure that ended the attempt.  Returns the world afterwards and
    what was recorded. *)
Definition closing_calls (lg : Logger) (t : Transport) (c : SFTPClient)
    (w : World) : World * list Event :=
  match Transport_call t Transport_close w with
  | (Raised e, w1) =>
      (w1, [EvTransportCall t Transport_close (Raised e);
            EvLog lg WARNING (closing_warning e)])
  | (Returned v, w1) =>
      match SFTPClient_call c SFTPClient_close w1 with
      | (Raised e, w2) =>
          (w2, [EvTransportCall t Transport_close (Returned v);
                EvClientCall c SFTPClient_close (Raised e);
                EvLog lg WARNING (closing_warning e)])
      | (Returned v', w2) =>
          (w2, [EvTransportCall t Transport_close (Returned v);
                EvClientCall c SFTPClient_close (Returned v')])
      end
  end.

Definition reconnect_message : string :=
  "Establishing a secure connection and authenticating with the SFTP server.".

(** The machine at the moment [reconnect] authenticates again. *)
Definition after_cleanup (m : Machine) (lg : Logger) (t : Transport)
    (c : SFTPClient) : Machine :=
  {| self := self m;
     world := fst (closing_calls lg t c (world m));
     trace := trace m ++ EvLog lg INFO reconnect_message
                      :: snd (closing_calls lg t c (world m)) |}.


Definition close_attempted_on_transport (tr : list Event) (t : Transport)
    : Prop :=
  exists r, In (EvTransportCall t Transport_close r) tr.




(** Description of the pass-through operations in the specification's
    words: the headline that is logged, the path arguments that are logged
    after it, and the client call that follows. *)
Definition headline (o : FileOp) : string :=
  match o with
  | ListDirectory _ =>
      "Listing the names of the contents in the specified folder on the SFTP server."
  | ChangeDirectory _ =>
      "Changing the current working directory on the SFTP server."
  | DeleteRemoteFile _ => "Deleting a file from the SFTP server."
  | DownloadRemoteFile _ _ =>
      "Downloading a file from the SFTP server to the local machine."
  | UploadLocalFile _ _ =>
      "Uploading a file from the local machine to the SFTP server."
  end.

Definition path_arguments (o : FileOp) : list string :=
  match o with
  | ListDirectory p => [p]
  | ChangeDirectory p => [p]
  | DeleteRemoteFile f => [f]
  | DownloadRemoteFile r l => [r; l]
  | UploadLocalFile l r => [l; r]
  end.

Definition delegated_call (o : FileOp) : ClientMethod :=
  match o with
  | ListDirectory p => SFTPClient_listdir p
  | ChangeDirectory p => SFTPClient_chdir p
  | DeleteRemoteFile f => SFTPClient_remove f
  | DownloadRemoteFile r l => SFTPClient_get r l
  | UploadLocalFile l r => SFTPClient_put l r
  end.

(** What the wrapper hands back for an outcome of the client call: the
    exception as it is; the value for [list_dir]; [None] for the others. *)
Definition handed_back (o : FileOp) (r : outcome value) : outcome value :=
  match r with
  | Raised e => Raised e
  | Returned v =>
      match o with
      | ListDirectory _ => Returned v
      | _ => Returned VNone
      end
  end.

Definition release_message : string :=
  "Closing the SFTP session and releasing resources.".

(** Closing the pair the way release does it: the transport first, the
    client only when the transport's [close] returned; the exception that
    ended the attempt goes to the unraisable hook.  Returns the world
    afterwards and what was recorded. *)
Definition releasing_calls (t : Transport) (c : SFTPClient) (w : World)
    : World * list Event :=
  match Transport_call t Transport_close w with
  | (Raised e, w1) =>
      (w1, [EvTransportCall t Transport_close (Raised e); EvUnraisable e])
  | (Returned v, w1) =>
      match SFTPClient_call c SFTPClient_close w1 with
      | (Raised e, w2) =>
          (w2, [EvTransportCall t Transport_close (Returned v);
                EvClientCall c SFTPClient_close (Raised e);
                EvUnraisable e])
      | (Returned v', w2) =>
          (w2, [EvTransportCall t Transport_close (Returned v);
                EvClientCall c SFTPClient_close (Returned v')])
      end
  end.

Definition is_connected_message : string :=
  "Checking if the SFTP connection is currently active.".

(** A computation that leaves the [_configuration] attribute as it found
    it, whether it returns or raises. *)
Definition keeps_configuration {A} (c : M A) : Prop :=
  forall m, _configuration (self (snd (c m))) = _configuration (self m).


(** A pass-through operation "returns the value and raises the exception of
    the delegated client call": both have the same outcome. *)
Definition same_outcome_as_client_call (o : FileOp) (m : Machine)
    (c : SFTPClient) : Prop :=
  fst (file_op o m) = fst (SFTPClient_call c (delegated_call o) (world m)).


(** ** Vocabulary for how operations compose *)

(** The logger [__init__] settles on (line 122). *)
Definition logger_or_default (logger : option Logger) : Logger :=
  match logger with
  | Some lg => lg
  | None => getLogger_module
  end.



(** Every log record among [evs] was handed to the logger [lg]. *)
Definition logs_only_to (lg : Logger) (evs : list Event) : Prop :=
  forall lg' lvl msg, In (EvLog lg' lvl msg) evs -> lg' = lg.

(** The object [__init__] leaves behind when [auth] raised: what the
    interpreter will eventually release. *)
Definition abandoned (host username : string) (password : option string)
    (port : Z) (logger : option Logger) (w : World) (tr : list Event)
    : Machine :=
  snd (__init__ host username password port logger
         {| self := SFTP_blank; world := w; trace := tr |}).

(** The session in machine [m] is served by the transport [t] and the client
    [c]: the liveness check asks [t], every pass-through operation logs and
    then calls [c], and release and the cleanup of [reconnect] start by
    closing [t]. *)
Definition ServedBy (m : Machine) (lg : Logger) (t : Transport)
    (c : SFTPClient) : Prop :=
  fst (is_connected m) = fst (Transport_call t Transport_is_active (world m)) /\
  (forall o,
      fst (file_op o m) =
        handed_back o (fst (SFTPClient_call c (delegated_call o) (world m))) /\
      trace (snd (file_op o m)) =
        (trace m ++
         EvLog lg INFO (headline o)
         :: map (EvLog lg INFO) (path_arguments o) ++
            [EvClientCall c (delegated_call o)
               (fst (SFTPClient_call c (delegated_call o) (world m)))])%list) /\
  (exists rest,
      trace (snd (release m)) =
        (trace m ++
         EvLog lg INFO release_message
         :: EvTransportCall t Transport_close
              (fst (Transport_call t Transport_close (world m)))
         :: rest)%list) /\
  (exists rest,
      trace (snd (reconnect_cleanup m)) =
        (trace m ++
         EvLog lg INFO reconnect_message
         :: EvTransportCall t Transport_close
              (fst (Transport_call t Transport_close (world m)))
         :: rest)%list).

End Session.

(** ** A small concrete paramiko, to run the methods on *)

Module Toy.

(** A server that hands out transports numbered from [next_id], accepts
    [connects_left] more authentications, and whose [close] calls fail as
    the two flags say. *)
Record Server : Type := {
  next_id : nat;
  connects_left : nat;
  transport_close_raises : bool;
  client_close_raises : bool
}.

Definition auth_failed : exn :=
  mk_exn "AuthenticationException" "Authentication failed.".
Definition socket_closed : exn := mk_exn "OSError" "Socket is closed".
Definition eof : exn := mk_exn "EOFError" "".

Definition open_transport (h : string) (p : Z) (s : Server)
    : outcome nat * Server :=
  (Returned (next_id s),
   {| next_id := S (next_id s); connects_left := connects_left s;
      transport_close_raises := transport_close_raises s;
      client_close_raises := client_close_raises s |}).

Definition authenticate (t : nat) (u : string) (pw : option string)
    (s : Server) : outcome value * Server :=
  match connects_left s with
  | O => (Raised auth_failed, s)
  | S n =>
      (Returned VNone,
       {| next_id := next_id s; connects_left := n;
          transport_close_raises := transport_close_raises s;
          client_close_raises := client_close_raises s |})
  end.

Definition derive_client (t : nat) (s : Server)
    : outcome nat * Server :=
  (Returned (100 + t)%nat, s).

Definition on_transport (t : nat) (f : TransportMethod) (s : Server)
    : outcome value * Server :=
  match f with
  | Transport_close =>
      if transport_close_raises s then (Raised socket_closed, s)
      else (Returned VNone, s)
  | Transport_is_active => (Returned (VBool true), s)
  end.

Definition on_client (c : nat) (f : ClientMethod) (s : Server)
    : outcome value * Server :=
  match f with
  | SFTPClient_close =>
      if client_close_raises s then (Raised eof, s) else (Returned VNone, s)
  | SFTPClient_listdir _ => (Returned (VNames ["x.txt"; "y.txt"]), s)
  | SFTPClient_put _ _ => (Returned (VObject "<SFTPAttributes>"), s)
  | _ => (Returned VNone, s)
  end.

Definition paramiko : Paramiko :=
  {| World := Server; Transport := nat; SFTPClient := nat;
     Transport_new := open_transport;
     Transport_connect := authenticate;
     SFTPClient_from_transport := derive_client;
     Transport_call := on_transport;
     SFTPClient_call := on_client |}.

Definition server (connects : nat) (tclose cclose : bool) : Server :=
  {| next_id := 0; connects_left := connects;
     transport_close_raises := tclose; client_close_raises := cclose |}.

Definition config : Configuration :=
  {| host := "sftp.example.org"; port := 22; username := "alice";
     password := Some "secret" |}.

(** The machine right after [SFTP("sftp.example.org", "alice", "secret")]
    returned against the given server. *)
Definition session (srv : Server) : @Machine paramiko :=
  snd (@__init__ paramiko "sftp.example.org" "alice" (Some "secret") 22 None
         (@Build_Machine paramiko (@SFTP_blank paramiko) srv [])).

(** Three sessions: one whose [close] calls work and whose server accepts
    another authentication; one whose transport fails to close but whose
    server accepts another authentication; one whose transport fails to
    close and whose server accepts no further authentication. *)
Definition healthy : @Machine paramiko := session (server 2 false false).
Definition recovering : @Machine paramiko := session (server 2 true false).
Definition stale : @Machine paramiko := session (server 1 true false).


(** A session constructed with a logger of its own, against a server whose
    transport fails to close. *)
Definition audited : @Machine paramiko :=
  snd (@__init__ paramiko "sftp.example.org" "alice" (Some "secret") 22
         (Some "audit")
         (@Build_Machine paramiko (@SFTP_blank paramiko)
            (server 2 true false) [])).

End Toy.

(** ** A paramiko whose server refuses every second authentication *)

Module Flaky.

(** The world is the number of authentications attempted so far; transports
    are numbered by it; an authentication succeeds when that number is even.
    Every other call returns. *)
Definition refused : exn :=
  mk_exn "SSHException" "Error reading SSH protocol banner".

Definition open_transport (h : string) (p : Z) (n : nat)
    : outcome nat * nat :=
  (Returned n, n).

Definition authenticate (t : nat) (u : string) (pw : option string) (n : nat)
    : outcome value * nat :=
  if Nat.even n then (Returned VNone, S n) else (Raised refused, S n).

Definition derive_client (t : nat) (n : nat) : outcome nat * nat :=
  (Returned (100 + t)%nat, n).

Definition on_transport (t : nat) (f : TransportMethod) (n : nat)
    : outcome value * nat :=
  match f with
  | Transport_close => (Returned VNone, n)
  | Transport_is_active => (Returned (VBool true), n)
  end.

Definition on_client (c : nat) (f : ClientMethod) (n : nat)
    : outcome value * nat :=
  match f with
  | SFTPClient_listdir _ => (Returned (VNames ["x.txt"; "y.txt"]), n)
  | _ => (Returned VNone, n)
  end.

Definition paramiko : Paramiko :=
  {| World := nat; Transport := nat; SFTPClient := nat;
     Transport_new := open_transport;
     Transport_connect := authenticate;
     SFTPClient_from_transport := derive_client;
     Transport_call := on_transport;
     SFTPClient_call := on_client |}.

(** The machine right after the constructor returned. *)
Definition session : @Machine paramiko :=
  snd (@__init__ paramiko "sftp.example.org" "alice" (Some "secret") 22 None
         (@Build_Machine paramiko (@SFTP_blank paramiko) 0 [])).

End Flaky.

(** * Properties *)

Section SessionProperties.

Context {paramiko : Paramiko}.

Local Open Scope list_scope.

(** ** How the methods run *)

Ltac unfold_methods :=
  unfold new_transport, connect, from_transport, transport_call, client_call,
    info, warning in *;
  unfold bind, ret, getattr, setattr, log, emit, delegate, try_except in *.

Ltac tidy_trace := repeat rewrite <- app_assoc; simpl.

Lemma Open_logger m lg cfg t c : Open m lg cfg t c -> _logger (self m) = Some lg.
Proof. unfold Open; intros ->; reflexivity. Qed.

Lemma Open_configuration m lg cfg t c :
  Open m lg cfg t c -> _configuration (self m) = Some cfg.
Proof. unfold Open; intros ->; reflexivity. Qed.

Lemma Open_transport m lg cfg t c :
  Open m lg cfg t c -> _transport (self m) = Some t.
Proof. unfold Open; intros ->; reflexivity. Qed.

Lemma Open_client m lg cfg t c :
  Open m lg cfg t c -> sftp_client (self m) = Some c.
Proof. unfold Open; intros ->; reflexivity. Qed.

Ltac open_facts H :=
  pose proof (Open_logger H);
  pose proof (Open_configuration H);
  pose proof (Open_transport H);
  pose proof (Open_client H).

Ltac read_attrs :=
  simpl;
  repeat match goal with
         | E : ?f (self ?m) = Some _ |- context [?f (self ?m)] =>
             rewrite E; simpl
         end.

(** [auth] on an object that has its logger and its configuration is one
    log record followed by [authenticate_calls]; the attributes are left as
    they are. *)
Lemma auth_run m lg cfg :
  _logger (self m) = Some lg ->
  _configuration (self m) = Some cfg ->
  auth m =
  (fst (fst (authenticate_calls cfg (world m))),
   {| self := self m;
      world := snd (fst (authenticate_calls cfg (world m)));
      trace := trace m ++ EvLog lg INFO auth_message
                       :: snd (authenticate_calls cfg (world m)) |}).
Proof.
  intros Hlg Hcfg.
  unfold auth, authenticate_calls, auth_message.
  unfold_methods; read_attrs.
  destruct (Transport_new (host cfg) (port cfg) (world m)) as [[t|e] w1];
    read_attrs; tidy_trace; [|reflexivity].
  destruct (Transport_connect t (username cfg) (password cfg) w1)
    as [[v|e] w2]; read_attrs; tidy_trace; [|reflexivity].
  destruct (SFTPClient_from_transport t w2) as [[c|e] w3];
    simpl; tidy_trace; reflexivity.
Qed.

(** The cleanup of [reconnect] on an open object always returns, whatever
    the two [close] calls do. *)
Lemma reconnect_cleanup_run m lg cfg t c :
  Open m lg cfg t c ->
  reconnect_cleanup m = (Returned tt, after_cleanup m lg t c).
Proof.
  intros Hopen.
  unfold reconnect_cleanup, reconnect_close, after_cleanup, closing_calls,
    reconnect_message.
  open_facts Hopen.
  unfold_methods; read_attrs.
  destruct (Transport_call t Transport_close (world m)) as [[v|e] w1];
    read_attrs; tidy_trace; [|reflexivity].
  destruct (SFTPClient_call c SFTPClient_close w1) as [[v'|e] w2];
    read_attrs; tidy_trace; reflexivity.
Qed.

Lemma after_cleanup_self m lg t c : self (after_cleanup m lg t c) = self m.
Proof. reflexivity. Qed.

(** [reconnect] on an open object: the cleanup, then [auth], then the two
    assignments if [auth] returned. *)
Lemma reconnect_run m lg cfg t c :
  Open m lg cfg t c ->
  reconnect m =
  match auth (after_cleanup m lg t c) with
  | (Returned handles, m2) =>
      (Returned tt,
       {| self := set_sftp_client (snd handles)
                    (set_transport (fst handles) (self m2));
          world := world m2; trace := trace m2 |})
  | (Raised e, m2) => (Raised e, m2)
  end.
Proof.
  intros Hopen. unfold reconnect.
  unfold bind at 1. rewrite (reconnect_cleanup_run Hopen).
  unfold bind at 1.
  destruct (auth (after_cleanup m lg t c)) as [[handles|e] m2]; reflexivity.
Qed.

Lemma auth_self m lg cfg :
  _logger (self m) = Some lg ->
  _configuration (self m) = Some cfg ->
  self (snd (auth m)) = self m.
Proof. intros Hlg Hcfg. rewrite (auth_run m Hlg Hcfg). reflexivity. Qed.

Lemma auth_trace m lg cfg :
  _logger (self m) = Some lg ->
  _configuration (self m) = Some cfg ->
  trace (snd (auth m)) =
  trace m ++ EvLog lg INFO auth_message
          :: snd (authenticate_calls cfg (world m)).
Proof. intros Hlg Hcfg. rewrite (auth_run m Hlg Hcfg). reflexivity. Qed.

Lemma auth_outcome m lg cfg :
  _logger (self m) = Some lg ->
  _configuration (self m) = Some cfg ->
  fst (auth m) = fst (fst (authenticate_calls cfg (world m))).
Proof. intros Hlg Hcfg. rewrite (auth_run m Hlg Hcfg). reflexivity. Qed.

(** The transport's [close] is attempted by every cleanup. *)
Lemma closing_calls_transport lg t c w :
  exists rest,
    snd (closing_calls lg t c w) =
    EvTransportCall t Transport_close
      (fst (Transport_call t Transport_close w)) :: rest.
Proof.
  unfold closing_calls.
  destruct (Transport_call t Transport_close w) as [[v|e] w1]; simpl.
  - destruct (SFTPClient_call c SFTPClient_close w1) as [[v'|e] w2];
      simpl; eexists; reflexivity.
  - eexists; reflexivity.
Qed.

(** ** Reconnect and failures *)


(** C9.  If the [auth] call inside [reconnect] raises, [reconnect] raises the
    same exception and the attributes of the session are what they were: in
    particular [_transport] and [sftp_client] still hold the previous
    handles, on the first of which [close] has been attempted. *)
Theorem reconnect_keeps_handles_when_auth_raises m lg cfg t c e :
  Open m lg cfg t c ->
  fst (auth (after_cleanup m lg t c)) = Raised e ->
  fst (reconnect m) = Raised e /\
  self (snd (reconnect m)) = self m /\
  _transport (self (snd (reconnect m))) = Some t /\
  sftp_client (self (snd (reconnect m))) = Some c /\
  close_attempted_on_transport (trace (snd (reconnect m))) t.
Proof.
  intros Hopen Hauth.
  assert (Hlg : _logger (self (after_cleanup m lg t c)) = Some lg)
    by (simpl; eapply Open_logger; eauto).
  assert (Hcfg : _configuration (self (after_cleanup m lg t c)) = Some cfg)
    by (simpl; eapply Open_configuration; eauto).
  pose proof (auth_self _ Hlg Hcfg) as Hself.
  pose proof (auth_trace _ Hlg Hcfg) as Htrace.
  rewrite (reconnect_run Hopen).
  destruct (auth (after_cleanup m lg t c)) as [[handles|e'] m2];
    simpl in *; [discriminate|].
  assert (Hs : self m2 = self m) by exact Hself.
  injection Hauth as ->.
  split; [reflexivity|]. split; [exact Hs|].
  rewrite Hs.
  split; [eapply Open_transport; eauto|].
  split; [eapply Open_client; eauto|].
  unfold close_attempted_on_transport. rewrite Htrace.
  destruct (closing_calls_transport lg t c (world m)) as [rest Hrest].
  rewrite Hrest. eexists.
  apply in_or_app. left. apply in_or_app. right. simpl. right. left.
  reflexivity.
Qed.



(** ** Authentication and construction *)

(** [__init__] assigns the logger and the configuration, calls [auth], and
    assigns the two handles if [auth] returned. *)
Lemma init_run h u pw p logger w tr :
  __init__ h u pw p logger {| self := SFTP_blank; world := w; trace := tr |} =
  match auth (configured h u pw p logger w tr) with
  | (Returned handles, m2) =>
      (Returned tt,
       {| self := set_sftp_client (snd handles)
                    (set_transport (fst handles) (self m2));
          world := world m2; trace := trace m2 |})
  | (Raised e, m2) => (Raised e, m2)
  end.
Proof.
  unfold __init__, configured, bind, setattr, set_configuration, set_logger,
    SFTP_blank; simpl.
  destruct (auth _) as [[handles|e] m2]; reflexivity.
Qed.

Lemma SFTP_new_run h u pw p logger w tr :
  SFTP_new h u pw p logger w tr =
  match auth (configured h u pw p logger w tr) with
  | (Returned handles, m2) =>
      (Returned (set_sftp_client (snd handles)
                   (set_transport (fst handles) (self m2))),
       (world m2, trace m2))
  | (Raised e, m2) => (Raised e, (world m2, trace m2))
  end.
Proof.
  unfold SFTP_new. rewrite init_run.
  destruct (auth (configured h u pw p logger w tr)) as [[handles|e] m2];
    reflexivity.
Qed.

Lemma authenticate_calls_attempts cfg w :
  attempts is_open_call (snd (authenticate_calls cfg w)) = 1 /\
  attempts is_connect_call (snd (authenticate_calls cfg w)) <= 1 /\
  attempts is_derive_call (snd (authenticate_calls cfg w)) <= 1.
Proof.
  unfold authenticate_calls, attempts.
  destruct (Transport_new (host cfg) (port cfg) w) as [[t|e] w1];
    [|simpl; lia].
  destruct (Transport_connect t (username cfg) (password cfg) w1)
    as [[v|e] w2]; [|simpl; lia].
  destruct (SFTPClient_from_transport t w2) as [[c|e] w3]; simpl; lia.
Qed.

(** C2.  Whatever step of the authentication fails while the object is
    being constructed (opening the transport, authenticating, deriving the
    client), the constructor call raises that same exception, returns no
    object, and does nothing after the failed step. *)
Theorem construction_propagates_auth_failure h u pw p logger w tr e :
  fst (fst (authenticate_calls
              {| host := h; port := p; username := u; password := pw |} w))
  = Raised e ->
  fst (auth (configured h u pw p logger w tr)) = Raised e /\
  fst (SFTP_new h u pw p logger w tr) = Raised e /\
  (forall s, fst (SFTP_new h u pw p logger w tr) <> Returned s) /\
  snd (SFTP_new h u pw p logger w tr) =
  (world (snd (auth (configured h u pw p logger w tr))),
   trace (snd (auth (configured h u pw p logger w tr)))).
Proof.
  intros Hfail.
  assert (Hauth : fst (auth (configured h u pw p logger w tr)) = Raised e).
  { erewrite auth_outcome by reflexivity. exact Hfail. }
  rewrite SFTP_new_run.
  destruct (auth (configured h u pw p logger w tr)) as [[handles|e'] m2];
    simpl in *; [discriminate|].
  injection Hauth as ->.
  repeat split. intros s; discriminate.
Qed.

(** C5.  [auth] on an object with a logger and a configuration logs one
    info record and then makes the calls of [authenticate_calls], in that
    order: open a transport to (host, port), authenticate it with (username,
    password), derive a client from that same transport; it returns that
    transport with that client.  Each of the three calls is made at most
    once, so nothing is retried.  [__init__] and [reconnect] both obtain
    their handles from this one routine. *)
Theorem auth_steps_in_order m lg cfg :
  _logger (self m) = Some lg ->
  _configuration (self m) = Some cfg ->
  auth m =
  (fst (fst (authenticate_calls cfg (world m))),
   {| self := self m;
      world := snd (fst (authenticate_calls cfg (world m)));
      trace := trace m ++ EvLog lg INFO auth_message
                       :: snd (authenticate_calls cfg (world m)) |}) /\
  (forall t c,
      fst (auth m) = Returned (t, c) ->
      exists v,
        trace (snd (auth m)) =
        trace m ++
        [EvLog lg INFO auth_message;
         EvTransportNew (host cfg) (port cfg) (Returned t);
         EvConnect t (username cfg) (password cfg) (Returned v);
         EvFromTransport t (Returned c)]) /\
  (exists added,
      trace (snd (auth m)) = trace m ++ added /\
      attempts is_open_call added = 1 /\
      attempts is_connect_call added <= 1 /\
      attempts is_derive_call added <= 1) /\
  (forall h u pw p logger w tr,
      __init__ h u pw p logger
        {| self := SFTP_blank; world := w; trace := tr |} =
      match auth (configured h u pw p logger w tr) with
      | (Returned handles, m2) =>
          (Returned tt,
           {| self := set_sftp_client (snd handles)
                        (set_transport (fst handles) (self m2));
              world := world m2; trace := trace m2 |})
      | (Raised e, m2) => (Raised e, m2)
      end) /\
  (forall t c,
      Open m lg cfg t c ->
      reconnect m =
      match auth (after_cleanup m lg t c) with
      | (Returned handles, m2) =>
          (Returned tt,
           {| self := set_sftp_client (snd handles)
                        (set_transport (fst handles) (self m2));
              world := world m2; trace := trace m2 |})
      | (Raised e, m2) => (Raised e, m2)
      end).
Proof.
  intros Hlg Hcfg.
  split; [exact (auth_run m Hlg Hcfg)|].
  split; [|split; [|split]].
  - intros t c. rewrite (auth_run m Hlg Hcfg); simpl.
    unfold authenticate_calls.
    destruct (Transport_new (host cfg) (port cfg) (world m)) as [[t0|e] w1];
      simpl; [|discriminate].
    destruct (Transport_connect t0 (username cfg) (password cfg) w1)
      as [[v|e] w2]; simpl; [|discriminate].
    destruct (SFTPClient_from_transport t0 w2) as [[c0|e] w3];
      simpl; [|discriminate].
    intros H; injection H as -> ->. exists v. reflexivity.
  - rewrite (auth_trace m Hlg Hcfg). eexists. split; [reflexivity|].
    unfold attempts; simpl.
    exact (authenticate_calls_attempts cfg (world m)).
  - intros. apply init_run.
  - intros t c Hopen. exact (reconnect_run Hopen).
Qed.

(** ** Liveness and the pass-through operations *)

Lemma is_connected_run m lg cfg t c :
  Open m lg cfg t c ->
  is_connected m =
  (fst (Transport_call t Transport_is_active (world m)),
   {| self := self m;
      world := snd (Transport_call t Transport_is_active (world m));
      trace := trace m ++
               [EvLog lg INFO is_connected_message;
                EvTransportCall t Transport_is_active
                  (fst (Transport_call t Transport_is_active (world m)))] |}).
Proof.
  intros Hopen. open_facts Hopen.
  unfold is_connected, is_connected_message. unfold_methods; read_attrs.
  destruct (Transport_call t Transport_is_active (world m)) as [r w1];
    simpl; tidy_trace; reflexivity.
Qed.

(** C6.  On an open session [is_connected] logs one info record, makes one
    delegated call, [is_active] on the transport in [_transport], and hands
    back exactly the outcome of that call; the attributes of the session
    are unchanged and no call is made on the client. *)
Theorem is_connected_reports_transport m lg cfg t c :
  Open m lg cfg t c ->
  fst (is_connected m) = fst (Transport_call t Transport_is_active (world m)) /\
  (forall b,
      fst (Transport_call t Transport_is_active (world m)) = Returned (VBool b) ->
      fst (is_connected m) = Returned (VBool b)) /\
  self (snd (is_connected m)) = self m /\
  trace (snd (is_connected m)) =
    trace m ++
    [EvLog lg INFO is_connected_message;
     EvTransportCall t Transport_is_active
       (fst (Transport_call t Transport_is_active (world m)))] /\
  world (snd (is_connected m)) =
    snd (Transport_call t Transport_is_active (world m)).
Proof.
  intros Hopen. rewrite (is_connected_run Hopen); simpl.
  repeat split. intros b Hb; exact Hb.
Qed.

Lemma file_op_run o m lg cfg t c :
  Open m lg cfg t c ->
  file_op o m =
  (handed_back o (fst (SFTPClient_call c (delegated_call o) (world m))),
   {| self := self m;
      world := snd (SFTPClient_call c (delegated_call o) (world m));
      trace := trace m ++
               EvLog lg INFO (headline o)
               :: map (EvLog lg INFO) (path_arguments o) ++
                  [EvClientCall c (delegated_call o)
                     (fst (SFTPClient_call c (delegated_call o) (world m)))] |}).
Proof.
  intros Hopen. open_facts Hopen.
  destruct o; simpl;
    unfold list_dir, change_dir, delete_file, download_file, upload_file;
    unfold_methods; read_attrs;
    match goal with
    | |- context [SFTPClient_call c ?f (world m)] =>
        destruct (SFTPClient_call c f (world m)) as [[v|e] w1]
    end; simpl; tidy_trace; reflexivity.
Qed.

(** C8 as the code has it.  On an open session each pass-through operation
    logs its headline and then each of its path arguments, all at info
    level, then makes its one client call; it raises exactly the exception
    of that call if the call raises; if the call returns, [list_dir] hands
    back the value of the call and the other four hand back [None],
    whatever the call returned.  The session's attributes are unchanged. *)
Theorem file_operations_log_then_delegate o m lg cfg t c :
  Open m lg cfg t c ->
  trace (snd (file_op o m)) =
    trace m ++
    EvLog lg INFO (headline o)
    :: map (EvLog lg INFO) (path_arguments o) ++
       [EvClientCall c (delegated_call o)
          (fst (SFTPClient_call c (delegated_call o) (world m)))] /\
  (forall e,
      fst (file_op o m) = Raised e <->
      fst (SFTPClient_call c (delegated_call o) (world m)) = Raised e) /\
  (forall p v,
      o = ListDirectory p ->
      fst (SFTPClient_call c (delegated_call o) (world m)) = Returned v ->
      fst (file_op o m) = Returned v) /\
  (forall v,
      (forall p, o <> ListDirectory p) ->
      fst (SFTPClient_call c (delegated_call o) (world m)) = Returned v ->
      fst (file_op o m) = Returned VNone) /\
  self (snd (file_op o m)) = self m /\
  world (snd (file_op o m)) =
    snd (SFTPClient_call c (delegated_call o) (world m)).
Proof.
  intros Hopen. rewrite (file_op_run o Hopen); simpl.
  split; [reflexivity|].
  split; [|split; [|split; [|split; reflexivity]]].
  - intros e.
    destruct (fst (SFTPClient_call c (delegated_call o) (world m)));
      simpl; split; intros H; try exact H;
      destruct o; discriminate.
  - intros p v -> Hv. simpl in *. rewrite Hv. reflexivity.
  - intros v Hnot Hv. rewrite Hv.
    destruct o; simpl; try reflexivity.
    exfalso. eapply Hnot. reflexivity.
Qed.

(** ** Release *)

Lemma release_run m lg cfg t c :
  Open m lg cfg t c ->
  release m =
  (Returned tt,
   {| self := self m;
      world := fst (releasing_calls t c (world m));
      trace := trace m ++ EvLog lg INFO release_message
                       :: snd (releasing_calls t c (world m)) |}).
Proof.
  intros Hopen. open_facts Hopen.
  unfold release, __del__, releasing_calls, release_message.
  unfold_methods; read_attrs.
  destruct (Transport_call t Transport_close (world m)) as [[v|e] w1];
    read_attrs; tidy_trace; [|reflexivity].
  destruct (SFTPClient_call c SFTPClient_close w1) as [[v'|e] w2];
    read_attrs; tidy_trace; reflexivity.
Qed.




(** ** The configuration is never written after construction *)

Lemma keeps_ret A (a : A) : keeps_configuration (ret a).
Proof. intros m; reflexivity. Qed.

Lemma keeps_bind A B (c : M A) (k : A -> M B) :
  keeps_configuration c ->
  (forall a, keeps_configuration (k a)) ->
  keeps_configuration (bind c k).
Proof.
  intros Hc Hk m. unfold bind.
  specialize (Hc m).
  destruct (c m) as [[a|e] m']; simpl in *.
  - rewrite Hk. exact Hc.
  - exact Hc.
Qed.

Lemma keeps_try_except A (body : M A) (handler : exn -> M A) :
  keeps_configuration body ->
  (forall e, keeps_configuration (handler e)) ->
  keeps_configuration (try_except body handler).
Proof.
  intros Hb Hh m. unfold try_except.
  specialize (Hb m).
  destruct (body m) as [[a|e] m']; simpl in *.
  - exact Hb.
  - rewrite Hh. exact Hb.
Qed.

Lemma keeps_getattr A (field : SFTP -> option A) name :
  keeps_configuration (getattr field name).
Proof. intros m. unfold getattr. destruct (field (self m)); reflexivity. Qed.

Lemma keeps_log lvl lg msg : keeps_configuration (log lvl lg msg).
Proof. intros m; reflexivity. Qed.

Lemma keeps_delegate A (call : World -> outcome A * World) record :
  keeps_configuration (delegate call record).
Proof. intros m. unfold delegate. destruct (call (world m)); reflexivity. Qed.

Lemma keeps_set_transport x : keeps_configuration (setattr set_transport x).
Proof. intros m; reflexivity. Qed.

Lemma keeps_set_sftp_client x :
  keeps_configuration (setattr set_sftp_client x).
Proof. intros m; reflexivity. Qed.

Lemma keeps_unraisable e :
  keeps_configuration (fun m => (Returned tt, emit (EvUnraisable e) m)).
Proof. intros m; reflexivity. Qed.

Create HintDb frame.
#[local] Hint Resolve keeps_ret keeps_getattr keeps_log keeps_delegate
  keeps_set_transport keeps_set_sftp_client keeps_unraisable : frame.
#[local] Hint Extern 2 (keeps_configuration _) =>
  (apply keeps_log || apply keeps_delegate) : frame.

Ltac frame :=
  repeat first
    [ solve [auto with frame]
    | apply keeps_bind; [|intros ?]
    | apply keeps_try_except; [|intros ?] ].

Lemma keeps_auth : keeps_configuration auth.
Proof. unfold auth. frame. Qed.

#[local] Hint Resolve keeps_auth : frame.

Lemma keeps_reconnect : keeps_configuration reconnect.
Proof. unfold reconnect, reconnect_cleanup, reconnect_close. frame. Qed.

Lemma keeps_release : keeps_configuration release.
Proof. unfold release, __del__. frame. Qed.

Lemma keeps_is_connected : keeps_configuration is_connected.
Proof. unfold is_connected. frame. Qed.

Lemma keeps_file_op o : keeps_configuration (file_op o).
Proof.
  destruct o; simpl;
    unfold list_dir, change_dir, delete_file, download_file, upload_file;
    frame.
Qed.

Lemma step_keeps_configuration o m :
  _configuration (self (step o m)) = _configuration (self m).
Proof.
  destruct o; simpl.
  - apply keeps_auth.
  - apply keeps_reconnect.
  - apply keeps_is_connected.
  - apply (keeps_file_op (ListDirectory path)).
  - apply (keeps_file_op (ChangeDirectory path)).
  - apply (keeps_file_op (DeleteRemoteFile filename)).
  - apply (keeps_file_op (DownloadRemoteFile remote_path local_path)).
  - apply (keeps_file_op (UploadLocalFile local_path remote_path)).
  - apply keeps_release.
Qed.

Lemma run_keeps_configuration ops m :
  _configuration (self (run ops m)) = _configuration (self m).
Proof.
  revert m. induction ops as [|o ops IH]; intros m.
  - reflexivity.
  - change (run (o :: ops) m) with (run ops (step o m)).
    rewrite IH. apply step_keeps_configuration.
Qed.

(** C7.  The configuration of a constructed session holds exactly the
    constructor's arguments, and after any sequence of operations
    (authenticate, reconnect, liveness check, list, change directory,
    delete, download, upload, release), returning or raising, the
    [_configuration] attribute still holds that same value. *)
Theorem configuration_never_mutated h u pw p logger w tr s w' tr' :
  SFTP_new h u pw p logger w tr = (Returned s, (w', tr')) ->
  _configuration s =
    Some {| host := h; port := p; username := u; password := pw |} /\
  forall ops,
    _configuration (self (run ops {| self := s; world := w'; trace := tr' |}))
    = Some {| host := h; port := p; username := u; password := pw |}.
Proof.
  intros Hnew.
  assert (Hs : _configuration s =
               Some {| host := h; port := p; username := u; password := pw |}).
  { rewrite SFTP_new_run in Hnew.
    pose proof (@auth_self (configured h u pw p logger w tr) _ _
                  eq_refl eq_refl) as Hself.
    destruct (auth (configured h u pw p logger w tr)) as [[handles|e] m2];
      simpl in *; [|discriminate].
    injection Hnew as <- _ _. simpl. rewrite Hself. reflexivity. }
  split; [exact Hs|].
  intros ops. rewrite run_keeps_configuration. exact Hs.
Qed.

(** ** The pairing invariant *)








(** ** What authentication leaves behind *)



(** X2.  When [__init__] raises, the object it was initialising has its
    logger and configuration but no handles.  Releasing that object logs
    the closing message and then fails on the missing [_transport]
    attribute, which the interpreter discards: no call at all is delegated,
    so a transport opened by the failed authentication is never closed. *)
Theorem release_after_failed_construction h u pw p logger w tr e :
  fst (__init__ h u pw p logger
         {| self := SFTP_blank; world := w; trace := tr |}) = Raised e ->
  _logger (self (abandoned h u pw p logger w tr))
    = Some (logger_or_default logger) /\
  _transport (self (abandoned h u pw p logger w tr)) = None /\
  sftp_client (self (abandoned h u pw p logger w tr)) = None /\
  fst (__del__ (abandoned h u pw p logger w tr))
    = Raised (AttributeError "_transport") /\
  release (abandoned h u pw p logger w tr) =
  (Returned tt,
   {| self := self (abandoned h u pw p logger w tr);
      world := world (abandoned h u pw p logger w tr);
      trace := trace (abandoned h u pw p logger w tr) ++
               [EvLog (logger_or_default logger) INFO release_message;
                EvUnraisable (AttributeError "_transport")] |}).
Proof.
  unfold abandoned. rewrite init_run.
  pose proof (@auth_self (configured h u pw p logger w tr) _ _
                eq_refl eq_refl) as Hself.
  destruct (auth (configured h u pw p logger w tr)) as [[handles|e'] m2];
    simpl in *; intros Hfail; [discriminate|].
  assert (Hlg : _logger (self m2) = Some (logger_or_default logger))
    by (rewrite Hself; reflexivity).
  assert (Ht : _transport (self m2) = None) by (rewrite Hself; reflexivity).
  assert (Hc : sftp_client (self m2) = None) by (rewrite Hself; reflexivity).
  split; [exact Hlg|]. split; [exact Ht|]. split; [exact Hc|].
  unfold release, __del__, release_message. unfold_methods; simpl.
  rewrite Hlg; simpl. rewrite Ht; simpl.
  split; [reflexivity|]. tidy_trace. reflexivity.
Qed.

(** ** One logger for the whole life of a session *)

Lemma authenticate_calls_no_log cfg w lg lvl msg :
  ~ In (EvLog lg lvl msg) (snd (authenticate_calls cfg w)).
Proof.
  unfold authenticate_calls.
  destruct (Transport_new (host cfg) (port cfg) w) as [[t|e] w1]; simpl.
  2: { intros [H|[]]; discriminate. }
  destruct (Transport_connect t (username cfg) (password cfg) w1)
    as [[v|e] w2]; simpl.
  2: { intros [H|[H|[]]]; discriminate. }
  destruct (SFTPClient_from_transport t w2) as [[c|e] w3]; simpl;
    intros [H|[H|[H|[]]]]; discriminate.
Qed.

Lemma closing_calls_logs lg t c w :
  logs_only_to lg (snd (closing_calls lg t c w)).
Proof.
  unfold closing_calls, logs_only_to.
  destruct (Transport_call t Transport_close w) as [[v|e] w1]; simpl.
  - destruct (SFTPClient_call c SFTPClient_close w1) as [[v'|e] w2]; simpl;
      intros lg' lvl msg H;
      repeat (destruct H as [H|H]; [try discriminate|]);
      try contradiction; injection H as -> _ _; reflexivity.
  - intros lg' lvl msg [H|[H|[]]]; [discriminate|].
    injection H as -> _ _; reflexivity.
Qed.

Lemma releasing_calls_no_log t c w lg lvl msg :
  ~ In (EvLog lg lvl msg) (snd (releasing_calls t c w)).
Proof.
  unfold releasing_calls.
  destruct (Transport_call t Transport_close w) as [[v|e] w1]; simpl.
  - destruct (SFTPClient_call c SFTPClient_close w1) as [[v'|e] w2]; simpl;
      intros H; repeat (destruct H as [H|H]; [discriminate|]);
      contradiction.
  - intros [H|[H|[]]]; discriminate.
Qed.

Lemma logs_only_to_app lg evs evs' :
  logs_only_to lg evs -> logs_only_to lg evs' -> logs_only_to lg (evs ++ evs').
Proof.
  intros H H' lg' lvl msg Hin. apply in_app_or in Hin.
  destruct Hin as [Hin|Hin]; [eapply H | eapply H']; eauto.
Qed.

Lemma logs_only_to_cons_log lg lvl msg evs :
  logs_only_to lg evs -> logs_only_to lg (EvLog lg lvl msg :: evs).
Proof.
  intros H lg' lvl' msg' [Hin|Hin].
  - injection Hin as -> _ _; reflexivity.
  - eapply H; eauto.
Qed.

Lemma authenticate_calls_logs lg cfg w :
  logs_only_to lg (snd (authenticate_calls cfg w)).
Proof.
  intros lg' lvl msg Hin. exfalso.
  eapply authenticate_calls_no_log; eauto.
Qed.

(** One operation on an open session logs only to the session's logger and
    leaves the session open with the same logger and configuration. *)
Lemma step_logs o m lg cfg t c :
  Open m lg cfg t c ->
  exists evs t' c',
    trace (step o m) = trace m ++ evs /\
    logs_only_to lg evs /\
    Open (step o m) lg cfg t' c'.
Proof.
  intros Hopen.
  assert (Hfile : forall fo,
             exists evs t' c',
               trace (snd (file_op fo m)) = trace m ++ evs /\
               logs_only_to lg evs /\
               Open (snd (file_op fo m)) lg cfg t' c').
  { intros fo. rewrite (file_op_run fo Hopen); simpl.
    eexists; exists t, c. split; [reflexivity|]. split; [|exact Hopen].
    apply logs_only_to_cons_log.
    intros lg' lvl msg Hin. apply in_app_or in Hin.
    destruct Hin as [Hin|[Hin|[]]]; [|discriminate].
    apply in_map_iff in Hin. destruct Hin as [x [Hx _]].
    injection Hx as -> _ _; reflexivity. }
  destruct o; simpl.
  - rewrite (auth_run m (Open_logger Hopen) (Open_configuration Hopen)); simpl.
    eexists; exists t, c. split; [reflexivity|]. split; [|exact Hopen].
    apply logs_only_to_cons_log, authenticate_calls_logs.
  - rewrite (reconnect_run Hopen).
    set (m1 := after_cleanup m lg t c).
    assert (Hlg : _logger (self m1) = Some lg)
      by (simpl; eapply Open_logger; eauto).
    assert (Hcfg : _configuration (self m1) = Some cfg)
      by (simpl; eapply Open_configuration; eauto).
    rewrite (auth_run m1 Hlg Hcfg).
    assert (Hlogs : logs_only_to lg
              (EvLog lg INFO reconnect_message
               :: snd (closing_calls lg t c (world m)) ++
                  EvLog lg INFO auth_message
                  :: snd (authenticate_calls cfg (world m1)))).
    { apply logs_only_to_cons_log, logs_only_to_app.
      - apply closing_calls_logs.
      - apply logs_only_to_cons_log, authenticate_calls_logs. }
    destruct (fst (fst (authenticate_calls cfg (world m1))))
      as [[t' c']|e]; simpl.
    + eexists; exists t', c'.
      split; [rewrite <- app_assoc; reflexivity|].
      split; [exact Hlogs|].
      unfold Open in *; simpl. rewrite Hopen. reflexivity.
    + eexists; exists t, c.
      split; [rewrite <- app_assoc; reflexivity|].
      split; [exact Hlogs|]. exact Hopen.
  - rewrite (is_connected_run Hopen); simpl.
    eexists; exists t, c. split; [reflexivity|]. split; [|exact Hopen].
    apply logs_only_to_cons_log.
    intros lg' lvl msg [H|[]]; discriminate.
  - apply (Hfile (ListDirectory path)).
  - apply (Hfile (ChangeDirectory path)).
  - apply (Hfile (DeleteRemoteFile filename)).
  - apply (Hfile (DownloadRemoteFile remote_path local_path)).
  - apply (Hfile (UploadLocalFile local_path remote_path)).
  - rewrite (release_run Hopen); simpl.
    eexists; exists t, c. split; [reflexivity|]. split; [|exact Hopen].
    apply logs_only_to_cons_log.
    intros lg' lvl msg Hin. exfalso.
    eapply releasing_calls_no_log; eauto.
Qed.

Lemma run_logs ops m lg cfg t c :
  Open m lg cfg t c ->
  logs_only_to lg (trace m) ->
  logs_only_to lg (trace (run ops m)) /\
  exists t' c', Open (run ops m) lg cfg t' c'.
Proof.
  revert m t c. induction ops as [|o ops IH]; intros m t c Hopen Hlogs.
  - split; [exact Hlogs|]. exists t, c. exact Hopen.
  - change (run (o :: ops) m) with (run ops (step o m)).
    destruct (step_logs o Hopen) as [evs [t' [c' [Htrace [Hevs Hopen']]]]].
    apply (IH (step o m) t' c' Hopen').
    rewrite Htrace. apply logs_only_to_app; assumption.
Qed.

(** X3.  The logger is settled once, by [__init__]: the logger passed to
    the constructor, or the module's logger when none is passed.  From the
    constructor call on and through any sequence of operations, returning
    or raising, every log record of the session goes to that logger, and
    the [_logger] attribute still holds it. *)
Theorem every_record_goes_to_the_session_logger
    h u pw p logger w s w' tr' ops :
  SFTP_new h u pw p logger w [] = (Returned s, (w', tr')) ->
  logs_only_to (logger_or_default logger)
    (trace (run ops {| self := s; world := w'; trace := tr' |})) /\
  _logger (self (run ops {| self := s; world := w'; trace := tr' |}))
    = Some (logger_or_default logger).
Proof.
  intros Hnew. rewrite SFTP_new_run in Hnew.
  set (m0 := configured h u pw p logger w []) in *.
  set (cfg := {| host := h; port := p; username := u; password := pw |}).
  set (lg := logger_or_default logger).
  assert (Hlg : _logger (self m0) = Some lg) by reflexivity.
  assert (Hcfg : _configuration (self m0) = Some cfg) by reflexivity.
  rewrite (auth_run m0 Hlg Hcfg) in Hnew.
  destruct (fst (fst (authenticate_calls cfg (world m0))))
    as [[t c]|e] eqn:Hout; simpl in Hnew; [|discriminate].
  injection Hnew as <- <- <-.
  subst m0; simpl in *.
  match goal with
  | |- context [run ops ?m] =>
      assert (Hopen : Open m lg cfg t c) by reflexivity;
      assert (Hlogs : logs_only_to lg (trace m))
        by (simpl; apply logs_only_to_cons_log, authenticate_calls_logs);
      destruct (run_logs ops Hopen Hlogs) as [Hall [t' [c' Hopen']]]
  end.
  split; [exact Hall|]. eapply Open_logger; eauto.
Qed.

(** ** Which handles serve the session after an operation *)

Lemma releasing_calls_transport t c w :
  exists rest,
    snd (releasing_calls t c w) =
    EvTransportCall t Transport_close
      (fst (Transport_call t Transport_close w)) :: rest.
Proof.
  unfold releasing_calls.
  destruct (Transport_call t Transport_close w) as [[v|e] w1]; simpl.
  - destruct (SFTPClient_call c SFTPClient_close w1) as [[v'|e] w2];
      simpl; eexists; reflexivity.
  - eexists; reflexivity.
Qed.

(** An open session is served by the handles in its attributes. *)
Lemma Open_ServedBy m lg cfg t c : Open m lg cfg t c -> ServedBy m lg t c.
Proof.
  intros Hopen. unfold ServedBy.
  split; [rewrite (is_connected_run Hopen); reflexivity|].
  split; [intros o; rewrite (file_op_run o Hopen); split; reflexivity|].
  split.
  - rewrite (release_run Hopen); simpl.
    destruct (releasing_calls_transport t c (world m)) as [rest ->].
    exists rest. reflexivity.
  - rewrite (reconnect_cleanup_run Hopen); simpl.
    destruct (closing_calls_transport lg t c (world m)) as [rest ->].
    exists rest. reflexivity.
Qed.


Lemma reconnect_returns_open m lg cfg t c t' c' :
  Open m lg cfg t c ->
  fst (auth (after_cleanup m lg t c)) = Returned (t', c') ->
  fst (reconnect m) = Returned tt /\
  Open (snd (reconnect m)) lg cfg t' c'.
Proof.
  intros Hopen Hauth.
  assert (Hlg : _logger (self (after_cleanup m lg t c)) = Some lg)
    by (simpl; eapply Open_logger; eauto).
  assert (Hcfg : _configuration (self (after_cleanup m lg t c)) = Some cfg)
    by (simpl; eapply Open_configuration; eauto).
  pose proof (auth_self _ Hlg Hcfg) as Hself.
  rewrite (reconnect_run Hopen).
  destruct (auth (after_cleanup m lg t c)) as [[handles|e] m2];
    simpl in *; [|discriminate].
  injection Hauth as ->. split; [reflexivity|].
  unfold Open in *; simpl. rewrite Hself, Hopen. reflexivity.
Qed.


(** X4.  After a [reconnect] whose authentication returned the pair
    (t', c'), the session is served by that pair: the liveness check asks
    t', every pass-through operation calls c', and the next release or
    reconnect closes t'. *)
Theorem operations_after_reconnect_use_the_new_pair m lg cfg t c t' c' :
  Open m lg cfg t c ->
  fst (auth (after_cleanup m lg t c)) = Returned (t', c') ->
  fst (reconnect m) = Returned tt /\
  ServedBy (snd (reconnect m)) lg t' c'.
Proof.
  intros Hopen Hauth.
  destruct (reconnect_returns_open Hopen Hauth) as [Hret Hopen'].
  split; [exact Hret|]. exact (Open_ServedBy Hopen').
Qed.

(** X5.  Release clears nothing and records nothing about being closed: a
    released session still holds both handles, so the liveness check and
    every pass-through operation are still delegated to them, and a second
    release calls [close] on the same transport again. *)
Theorem released_session_still_delegates m lg cfg t c :
  Open m lg cfg t c ->
  self (snd (release m)) = self m /\
  ServedBy (snd (release m)) lg t c.
Proof.
  intros Hopen.
  assert (Hself : self (snd (release m)) = self m)
    by (rewrite (release_run Hopen); reflexivity).
  split; [exact Hself|].
  apply (@Open_ServedBy _ lg cfg). unfold Open in *.
  rewrite Hself. exact Hopen.
Qed.


(** X8.  Calling [auth] directly does not switch the session over: whatever
    [auth] returns or raises, the session is still served by the pair it
    had, and the pair a direct call returns is held by no attribute. *)
Theorem direct_auth_is_not_adopted m lg cfg t c :
  Open m lg cfg t c ->
  self (snd (auth m)) = self m /\
  ServedBy (snd (auth m)) lg t c.
Proof.
  intros Hopen.
  pose proof (auth_self m (Open_logger Hopen) (Open_configuration Hopen))
    as Hself.
  split; [exact Hself|].
  apply (@Open_ServedBy _ lg cfg). unfold Open in *.
  rewrite Hself. exact Hopen.
Qed.

(** ** How many calls a reconnect makes *)





End SessionProperties.

(** * The theorems at work on the concrete paramiko *)

Section Examples.

Existing Instance Toy.paramiko.

Local Open Scope list_scope.

Lemma healthy_open : Open Toy.healthy getLogger_module Toy.config 0 100.
Proof. reflexivity. Defined.

Lemma recovering_open : Open Toy.recovering getLogger_module Toy.config 0 100.
Proof. reflexivity. Defined.

Lemma stale_open : Open Toy.stale getLogger_module Toy.config 0 100.
Proof. reflexivity. Defined.


(** C9 on the same session. *)
Lemma reconnect_keeps_handles_when_auth_raises_witness :
  fst (auth (after_cleanup Toy.stale getLogger_module 0 100))
  = Raised Toy.auth_failed /\
  self (snd (reconnect Toy.stale)) = self Toy.stale.
Proof.
  split; [reflexivity|].
  apply (proj1 (proj2
    (@reconnect_keeps_handles_when_auth_raises Toy.paramiko Toy.stale
       getLogger_module Toy.config 0 100 Toy.auth_failed
       stale_open eq_refl))).
Defined.


(** C2 against a server that rejects the credentials. *)
Lemma construction_propagates_auth_failure_witness :
  fst (fst (authenticate_calls Toy.config (Toy.server 0 false false)))
  = Raised Toy.auth_failed /\
  fst (SFTP_new "sftp.example.org" "alice" (Some "secret") 22 None
         (Toy.server 0 false false) [])
  = Raised Toy.auth_failed.
Proof.
  split; [reflexivity|].
  apply (proj1 (proj2
    (@construction_propagates_auth_failure Toy.paramiko
       "sftp.example.org" "alice" (Some "secret") 22%Z None
       (Toy.server 0 false false) [] Toy.auth_failed eq_refl))).
Defined.

(** C5 on a session that authenticates again. *)
Lemma auth_steps_in_order_witness :
  _logger (self Toy.healthy) = Some getLogger_module /\
  _configuration (self Toy.healthy) = Some Toy.config /\
  exists v,
    trace (snd (auth Toy.healthy)) =
    trace Toy.healthy ++
    [EvLog getLogger_module INFO auth_message;
     EvTransportNew "sftp.example.org" 22 (Returned 1);
     EvConnect 1 "alice" (Some "secret") (Returned v);
     EvFromTransport 1 (Returned 101)].
Proof.
  split; [reflexivity|]. split; [reflexivity|].
  apply (proj1 (proj2
    (@auth_steps_in_order Toy.paramiko Toy.healthy getLogger_module
       Toy.config eq_refl eq_refl)) 1 101 eq_refl).
Defined.

(** C6 on a live session. *)
Lemma is_connected_reports_transport_witness :
  Open Toy.healthy getLogger_module Toy.config 0 100 /\
  fst (is_connected Toy.healthy) = Returned (VBool true).
Proof.
  split; [exact healthy_open|].
  apply (proj1 (proj2
    (@is_connected_reports_transport Toy.paramiko Toy.healthy
       getLogger_module Toy.config 0 100 healthy_open)) true eq_refl).
Defined.

(** C7 on a session that is reconnected, used and released. *)
Lemma configuration_never_mutated_witness :
  _configuration
    (self (run [Reconnect; UploadFile "a.txt" "/remote/a.txt"; Release]
             Toy.recovering))
  = Some Toy.config.
Proof.
  apply (proj2
    (@configuration_never_mutated Toy.paramiko
       "sftp.example.org" "alice" (Some "secret") 22%Z None
       (Toy.server 2 true false) []
       (self Toy.recovering) (world Toy.recovering) (trace Toy.recovering)
       eq_refl)).
Defined.

(** C8 as the code has it, on an upload. *)
Lemma file_operations_log_then_delegate_witness :
  Open Toy.healthy getLogger_module Toy.config 0 100 /\
  trace (snd (upload_file "a.txt" "/remote/a.txt" Toy.healthy)) =
    trace Toy.healthy ++
    [EvLog getLogger_module INFO
       "Uploading a file from the local machine to the SFTP server.";
     EvLog getLogger_module INFO "a.txt";
     EvLog getLogger_module INFO "/remote/a.txt";
     EvClientCall 100 (SFTPClient_put "a.txt" "/remote/a.txt")
       (Returned (VObject "<SFTPAttributes>"))].
Proof.
  split; [exact healthy_open|].
  apply (proj1
    (@file_operations_log_then_delegate Toy.paramiko
       (UploadLocalFile "a.txt" "/remote/a.txt") Toy.healthy
       getLogger_module Toy.config 0 100 healthy_open)).
Defined.

(** C8 as stated fails on an upload: the client's [put] returns an
    attributes object, [upload_file] returns [None]. *)
Lemma upload_file_drops_the_value_of_put :
  Open Toy.healthy getLogger_module Toy.config 0 100 /\
  fst (upload_file "a.txt" "/remote/a.txt" Toy.healthy) = Returned VNone /\
  fst (SFTPClient_call 100 (SFTPClient_put "a.txt" "/remote/a.txt")
         (world Toy.healthy))
  = Returned (VObject "<SFTPAttributes>") /\
  ~ same_outcome_as_client_call
      (UploadLocalFile "a.txt" "/remote/a.txt") Toy.healthy 100.
Proof.
  split; [exact healthy_open|].
  split; [reflexivity|]. split; [reflexivity|].
  unfold same_outcome_as_client_call. simpl. discriminate.
Qed.






(** X2 against the same server: the abandoned object is released without a
    single delegated call. *)
Lemma release_after_failed_construction_witness :
  fst (__init__ "sftp.example.org" "alice" (Some "secret") 22 None
         (@Build_Machine Toy.paramiko SFTP_blank (Toy.server 0 false false)
            []))
  = Raised Toy.auth_failed /\
  fst (__del__ (abandoned "sftp.example.org" "alice" (Some "secret") 22 None
                  (Toy.server 0 false false) []))
  = Raised (AttributeError "_transport").
Proof.
  split; [reflexivity|].
  apply (proj1 (proj2 (proj2 (proj2
    (@release_after_failed_construction Toy.paramiko
       "sftp.example.org" "alice" (Some "secret") 22%Z None
       (Toy.server 0 false false) [] Toy.auth_failed eq_refl))))).
Defined.

(** X3 on a session constructed with a logger of its own, then
    reconnected through a failing close, used and released. *)
Lemma every_record_goes_to_the_session_logger_witness :
  logs_only_to "audit"
    (trace (run [Reconnect; ListDir "."; IsConnected; Release]
              Toy.audited)).
Proof.
  apply (proj1
    (@every_record_goes_to_the_session_logger Toy.paramiko
       "sftp.example.org" "alice" (Some "secret") 22%Z (Some "audit")
       (Toy.server 2 true false)
       (self Toy.audited) (world Toy.audited) (trace Toy.audited)
       [Reconnect; ListDir "."; IsConnected; Release]
       eq_refl)).
Defined.

(** X4 on a session whose transport fails to close: the reconnected
    session is served by the new pair. *)
Lemma operations_after_reconnect_use_the_new_pair_witness :
  fst (auth (after_cleanup Toy.recovering getLogger_module 0 100))
  = Returned (1, 101) /\
  ServedBy (snd (reconnect Toy.recovering)) getLogger_module 1 101.
Proof.
  split; [reflexivity|].
  apply (proj2
    (@operations_after_reconnect_use_the_new_pair Toy.paramiko
       Toy.recovering getLogger_module Toy.config 0 100 1 101
       recovering_open eq_refl)).
Defined.

(** X5 on a released session. *)
Lemma released_session_still_delegates_witness :
  Open Toy.healthy getLogger_module Toy.config 0 100 /\
  ServedBy (snd (release Toy.healthy)) getLogger_module 0 100.
Proof.
  split; [exact healthy_open|].
  apply (proj2
    (@released_session_still_delegates Toy.paramiko Toy.healthy
       getLogger_module Toy.config 0 100 healthy_open)).
Defined.



(** X8 on a live session: a direct [auth] returns a second pair and the
    session goes on with the first. *)
Lemma direct_auth_is_not_adopted_witness :
  fst (auth Toy.healthy) = Returned (1, 101) /\
  ServedBy (snd (auth Toy.healthy)) getLogger_module 0 100.
Proof.
  split; [reflexivity|].
  apply (proj2
    (@direct_auth_is_not_adopted Toy.paramiko Toy.healthy
       getLogger_module Toy.config 0 100 healthy_open)).
Defined.

End Examples.
